(** * BetterLabeledCheckbox: a checkbox combined with a label

    Shallow embedding of [Code/GUI/BetterLabeledCheckbox.py].  Python
    objects live in a heap indexed by object identity; the methods of the
    class are computations in a state-and-exception monad over that heap
    and the console.  Integers are [Z] (Python's [//] is floor division,
    as is [Z.div] for a positive divisor) and colour components are
    rationals, so that the literals 0.5 and 0.4 are [1#2] and [2#5].

    The class is embedded twice.  [BetterLabeledCheckbox] is the call with
    [x], [y] and [text_size] integers, on which the arithmetic of
    [__init__] cannot fail.  [Dyn] is the same code with these three
    parameters as arbitrary Python values, on which [+] and [//] raise
    [TypeError]; on integers the two agree. *)

From Stdlib Require Import ZArith QArith String.
From stdpp Require Import gmap strings list fin_maps.

Local Open Scope Z_scope.
Local Open Scope string_scope.

(** ** Values *)

(** Object identity. *)
Definition ref := positive.

(** The few Python values that travel through the constructor untouched
    (parent, callback, callback arguments, event arguments). *)
Inductive pyval :=
| PyNone
| PyBool (b : bool)
| PyInt (n : Z)
| PyStr (s : string)
| PyObj (r : ref).

(** A colour is either a panda3d [Vec3] or the 4-tuple literal the hover
    callbacks write. *)
Inductive colour :=
| Vec3 (x y z : Q)
| Tuple4 (r g b a : Q).

(** [Vec3(v)]: the one-argument constructor fills every component. *)
Definition Vec3_fill (v : Q) : colour := Vec3 v v v.

Inductive exn :=
| AttributeError (attr : string)
| ToolkitError (msg : string)
| TypeError (op : string).

(** [DGG.WITHIN] and [DGG.WITHOUT]. *)
Inductive gui_event := WITHIN | WITHOUT.

Definition gui_event_eqb (e1 e2 : gui_event) : bool :=
  match e1, e2 with
  | WITHIN, WITHIN | WITHOUT, WITHOUT => true
  | _, _ => false
  end.

(** The two methods of the class that get bound as callbacks. *)
Inductive method := on_node_enter | on_node_leave.

(** A bound method [self.m]. *)
Record bound_method := { bm_self : ref; bm_func : method }.

(** ** Objects *)

(** Keyword arguments of the [BetterCheckbox] call. *)
Record CheckboxArgs := {
  cb_parent : pyval;
  cb_x : Z;
  cb_y : Z;
  cb_callback : pyval;
  cb_extra_args : list pyval;
  cb_checked : bool;
  cb_radio : bool;
  cb_expand_width : Z
}.

(** Keyword arguments of the [BetterOnscreenText] call. *)
Record TextArgs := {
  tx_x : Z;
  tx_y : Z;
  tx_text : string;
  tx_align : string;
  tx_parent : pyval;
  tx_size : Z;
  tx_color : colour;
  tx_may_change : bool
}.

(** The scene-graph node of a checkbox: the callbacks registered with
    [bind], most recent first. *)
Record GuiNode := { bindings : list (gui_event * bound_method) }.

(** Modelled from the spec: the checkbox primitive ([BetterCheckbox], not
    part of this file), "a toggle control with position, checked state,
    callback, and optional radio exclusivity semantics" that "exposes a
    scene-graph node that can register region-enter/region-exit event
    bindings". *)
Record Checkbox := {
  chk_conf : CheckboxArgs;
  chk_node : GuiNode
}.

(** Modelled from the spec: the label primitive ([BetterOnscreenText], not
    part of this file), "a positioned, styleable, mutable text node
    exposing a foreground-color property".  [ot_node] is the property
    dictionary reached through [_node[...]]. *)
Record OnscreenText := {
  ot_text : string;
  ot_x : Z;
  ot_y : Z;
  ot_align : string;
  ot_parent : pyval;
  ot_size : Z;
  ot_may_change : bool;
  ot_node : gmap string colour
}.

(** Instance attributes of a [BetterLabeledCheckbox]; an attribute is
    [None] until [__init__] assigns it. *)
Record LabeledCheckbox := {
  _checkbox : option ref;
  _text : option ref
}.

(** [OForeign] is whatever a primitive builds when it accepts arguments
    outside its documented types; nothing is known of such an object. *)
Inductive obj :=
| OCheckbox (c : Checkbox)
| OText (t : OnscreenText)
| OLabeled (l : LabeledCheckbox)
| OForeign.

Record world := {
  heap : gmap ref obj;
  stdout : list string
}.

(** ** The monad of Python computations *)

Inductive result (A : Type) :=
| Ok (a : A)
| Raise (e : exn).
Arguments Ok {A} a.
Arguments Raise {A} e.

Definition M (A : Type) : Type := world -> result A * world.

Definition ret {A} (a : A) : M A := fun w => (Ok a, w).

Definition raise {A} (e : exn) : M A := fun w => (Raise e, w).

Definition bind {A B} (m : M A) (k : A -> M B) : M B :=
  fun w =>
    match m w with
    | (Ok a, w') => k a w'
    | (Raise e, w') => (Raise e, w')
    end.

Declare Scope py_scope.
Delimit Scope py_scope with py.
Notation "x <- c ;; k" := (bind c (fun x => k))
  (at level 100, c at next level, right associativity) : py_scope.
Notation "c ;;; k" := (bind c (fun _ => k))
  (at level 100, right associativity) : py_scope.
Local Open Scope py_scope.

(** Allocation of a new object at an identity not in use. *)
Definition alloc (o : obj) : M ref :=
  fun w =>
    let r := fresh (dom (heap w)) in
    (Ok r, {| heap := <[r := o]> (heap w); stdout := stdout w |}).

Definition store (r : ref) (o : obj) : M unit :=
  fun w => (Ok tt, {| heap := <[r := o]> (heap w); stdout := stdout w |}).

(** [print(s)]. *)
Definition print (s : string) : M unit :=
  fun w => (Ok tt, {| heap := heap w; stdout := stdout w ++ [s] |}).

(** [ot_node[k] = v] on a label. *)
Definition ot_setitem (k : string) (v : colour) (t : OnscreenText) : OnscreenText :=
  {| ot_text := ot_text t; ot_x := ot_x t; ot_y := ot_y t;
     ot_align := ot_align t; ot_parent := ot_parent t; ot_size := ot_size t;
     ot_may_change := ot_may_change t;
     ot_node := <[k := v]> (ot_node t) |}.

(** [r._node[k] = v], for [r] a label. *)
Definition node_setitem (r : ref) (k : string) (v : colour) : M unit :=
  fun w =>
    match heap w !! r with
    | Some (OText t) => store r (OText (ot_setitem k v t)) w
    | _ => raise (AttributeError "_node") w
    end.

(** [r._node.bind(ev, h)], for [r] a checkbox. *)
Definition node_bind (r : ref) (ev : gui_event) (h : bound_method) : M unit :=
  fun w =>
    match heap w !! r with
    | Some (OCheckbox c) =>
        store r (OCheckbox {| chk_conf := chk_conf c;
                              chk_node := {| bindings := (ev, h) :: bindings (chk_node c) |} |}) w
    | _ => raise (AttributeError "_node") w
    end.

(** [self._checkbox] and [self._text] as expressions. *)
Definition getattr_checkbox (self : ref) : M ref :=
  fun w =>
    match heap w !! self with
    | Some (OLabeled {| _checkbox := Some r |}) => (Ok r, w)
    | _ => raise (AttributeError "_checkbox") w
    end.

Definition getattr_text (self : ref) : M ref :=
  fun w =>
    match heap w !! self with
    | Some (OLabeled {| _text := Some r |}) => (Ok r, w)
    | _ => raise (AttributeError "_text") w
    end.

(** [self._checkbox = r] and [self._text = r]. *)
Definition setattr_checkbox (self r : ref) : M unit :=
  fun w =>
    match heap w !! self with
    | Some (OLabeled l) =>
        store self (OLabeled {| _checkbox := Some r; _text := _text l |}) w
    | _ => raise (AttributeError "_checkbox") w
    end.

Definition setattr_text (self r : ref) : M unit :=
  fun w =>
    match heap w !! self with
    | Some (OLabeled l) =>
        store self (OLabeled {| _checkbox := _checkbox l; _text := Some r |}) w
    | _ => raise (AttributeError "_text") w
    end.

(** ** The collaborators *)

(** When the two primitives refuse to construct (an invalid parent, an
    invalid font size, ...) is decided outside this class: it is a
    parameter of the development.  [Some e] means the constructor raises
    [e] when called with these arguments in this world. *)
Record Toolkit := {
  checkbox_rejects : world -> CheckboxArgs -> option exn;
  text_rejects : world -> TextArgs -> option exn
}.

(** Modelled from the spec: [DebugObject.__init__] (the base class is not
    part of this file); the spec gives it no state and no failure. *)
Definition DebugObject_init (self : ref) : M unit := ret tt.

(** Modelled from the spec: the label a successful [BetterOnscreenText(...)]
    call leaves in the heap, its foreground colour being the colour given. *)
Definition text_of_args (a : TextArgs) : OnscreenText :=
  {| ot_text := tx_text a; ot_x := tx_x a; ot_y := tx_y a;
     ot_align := tx_align a; ot_parent := tx_parent a; ot_size := tx_size a;
     ot_may_change := tx_may_change a;
     ot_node := {[ "fg" := tx_color a ]} |}.

Section Primitives.
Variable tk : Toolkit.

(** Modelled from the spec: the call [BetterCheckbox(...)]. *)
Definition BetterCheckbox (a : CheckboxArgs) : M ref :=
  fun w =>
    match checkbox_rejects tk w a with
    | Some e => raise e w
    | None => alloc (OCheckbox {| chk_conf := a; chk_node := {| bindings := [] |} |}) w
    end.

(** Modelled from the spec: the call [BetterOnscreenText(...)]. *)
Definition BetterOnscreenText (a : TextArgs) : M ref :=
  fun w =>
    match text_rejects tk w a with
    | Some e => raise e w
    | None => alloc (OText (text_of_args a)) w
    end.
End Primitives.

(** ** The class *)

Module BetterLabeledCheckbox.

(** The parameters of [__init__], under their source names. *)
Record kwargs := {
  parent : pyval;
  x : Z;
  y : Z;
  chb_callback : pyval;
  chb_args : option (list pyval);
  chb_checked : bool;
  text : string;
  text_size : Z;
  radio : bool;
  text_color : option colour;
  expand_width : Z
}.

(** The defaults of the signature. *)
Definition defaults : kwargs :=
  {| parent := PyNone; x := 0; y := 0; chb_callback := PyNone;
     chb_args := None; chb_checked := true; text := ""; text_size := 18;
     radio := false; text_color := None; expand_width := 100 |}.

(** The argument list after [if chb_args is None: chb_args = []]. *)
Definition chb_args_or_empty (a : kwargs) : list pyval :=
  match chb_args a with
  | None => []
  | Some l => l
  end.

(** The colour after [if text_color is None: text_color = Vec3(1)]. *)
Definition text_color_or_white (a : kwargs) : colour :=
  match text_color a with
  | None => Vec3_fill 1
  | Some c => c
  end.

(** The keyword arguments of the two constructor calls. *)
Definition checkbox_call (a : kwargs) : CheckboxArgs :=
  {| cb_parent := parent a; cb_x := x a; cb_y := y a;
     cb_callback := chb_callback a; cb_extra_args := chb_args_or_empty a;
     cb_checked := chb_checked a; cb_radio := radio a;
     cb_expand_width := expand_width a |}.

Definition text_call (a : kwargs) : TextArgs :=
  {| tx_x := x a + 26; tx_y := y a + 10 + text_size a / 4;
     tx_text := text a; tx_align := "left"; tx_parent := parent a;
     tx_size := text_size a; tx_color := text_color_or_white a;
     tx_may_change := true |}.

(** The same call with one keyword argument replaced. *)
Definition with_chb_args (v : option (list pyval)) (a : kwargs) : kwargs :=
  {| parent := parent a; x := x a; y := y a; chb_callback := chb_callback a;
     chb_args := v; chb_checked := chb_checked a; text := text a;
     text_size := text_size a; radio := radio a; text_color := text_color a;
     expand_width := expand_width a |}.

Definition with_text_color (v : option colour) (a : kwargs) : kwargs :=
  {| parent := parent a; x := x a; y := y a; chb_callback := chb_callback a;
     chb_args := chb_args a; chb_checked := chb_checked a; text := text a;
     text_size := text_size a; radio := radio a; text_color := v;
     expand_width := expand_width a |}.

Definition with_parent (v : pyval) (a : kwargs) : kwargs :=
  {| parent := v; x := x a; y := y a; chb_callback := chb_callback a;
     chb_args := chb_args a; chb_checked := chb_checked a; text := text a;
     text_size := text_size a; radio := radio a; text_color := text_color a;
     expand_width := expand_width a |}.

Section Methods.
Variable tk : Toolkit.

Definition __init__ (self : ref) (a : kwargs) : M unit :=
  DebugObject_init self ;;;
  c <- BetterCheckbox tk (checkbox_call a) ;;
  setattr_checkbox self c ;;;
  t <- BetterOnscreenText tk (text_call a) ;;
  setattr_text self t ;;;
  n <- getattr_checkbox self ;;
  node_bind n WITHIN {| bm_self := self; bm_func := on_node_enter |} ;;;
  n <- getattr_checkbox self ;;
  node_bind n WITHOUT {| bm_self := self; bm_func := on_node_leave |}.

(** The call [BetterLabeledCheckbox(...)]: a new instance without
    attributes, initialised by [__init__]. *)
Definition new (a : kwargs) : M ref :=
  self <- alloc (OLabeled {| _checkbox := None; _text := None |}) ;;
  __init__ self a ;;;
  ret self.
End Methods.

(** Internal callback when the node gets hovered. *)
Definition _on_node_enter (self : ref) (args : list pyval) : M pyval :=
  print "node enter" ;;;
  t <- getattr_text self ;;
  node_setitem t "fg" (Tuple4 (1#2) (1#2) (1#2) 1) ;;;
  ret PyNone.

(** Internal callback when the node gets no longer hovered. *)
Definition _on_node_leave (self : ref) (args : list pyval) : M pyval :=
  print "node leave" ;;;
  t <- getattr_text self ;;
  node_setitem t "fg" (Tuple4 (2#5) (2#5) (2#5) 1) ;;;
  ret PyNone.

(** Returns a handle to the checkbox. *)
Definition get_checkbox (self : ref) : M ref := getattr_checkbox self.

(** Returns a handle to the label. *)
Definition get_label (self : ref) : M ref := getattr_text self.

End BetterLabeledCheckbox.

Module BLC := BetterLabeledCheckbox.

(** ** The class on arbitrary Python values

    [x], [y] and [text_size] are the only parameters [__init__] computes
    with ([x + 26] and [y + 10 + text_size // 4]); every other parameter
    is only compared with [None] or handed to a primitive as it is.
    Python checks the operands of [+] and [//] when the expression is
    evaluated, so for these three the values are taken as they come. *)

(** A value passed as [x], [y] or [text_size]: an int, a bool (a subclass
    of int), [None] or a str.  Floats, and objects that bring their own
    arithmetic, are outside this embedding. *)
Inductive pyarg :=
| ArgInt (n : Z)
| ArgBool (b : bool)
| ArgNone
| ArgStr (s : string).

(** The integer a value is, if it is one ([True] is 1, [False] is 0). *)
Definition as_int (v : pyarg) : option Z :=
  match v with
  | ArgInt n => Some n
  | ArgBool b => Some (Z.b2z b)
  | ArgNone | ArgStr _ => None
  end.

(** [v + n] for an int [n]. *)
Definition py_add (v : pyarg) (n : Z) : M Z :=
  match as_int v with
  | Some z => ret (z + n)
  | None => raise (TypeError "+")
  end.

(** [v // n] for a non-zero int [n]. *)
Definition py_floordiv (v : pyarg) (n : Z) : M Z :=
  match as_int v with
  | Some z => ret (z / n)
  | None => raise (TypeError "//")
  end.

(** A number as the integer it is; used only where the value has already
    passed through [+] or [//]. *)
Definition py_int (v : pyarg) : Z :=
  match as_int v with
  | Some z => z
  | None => 0
  end.

Module Dyn.

(** The parameters of [__init__], under their source names. *)
Record kwargs := {
  parent : pyval;
  x : pyarg;
  y : pyarg;
  chb_callback : pyval;
  chb_args : option (list pyval);
  chb_checked : bool;
  text : string;
  text_size : pyarg;
  radio : bool;
  text_color : option colour;
  expand_width : Z
}.

(** The defaults of the signature. *)
Definition defaults : kwargs :=
  {| parent := PyNone; x := ArgInt 0; y := ArgInt 0; chb_callback := PyNone;
     chb_args := None; chb_checked := true; text := ""; text_size := ArgInt 18;
     radio := false; text_color := None; expand_width := 100 |}.



Section Methods.
Variable tk : Toolkit.

(** What the checkbox primitive does when [x] or [y] is not a number is
    its own affair, and a parameter: [Some e] means it raises [e], [None]
    that it builds something all the same. *)
Variable raw : world -> pyarg -> pyarg -> option exn.

(** The call [BetterCheckbox(parent=parent, x=x, y=y, ...)] of lines
    25-28, after [if chb_args is None: chb_args = []]. *)
Definition checkbox_call (a : kwargs) : M ref :=
  fun w =>
    match as_int (x a), as_int (y a) with
    | Some vx, Some vy =>
        BetterCheckbox tk
          {| cb_parent := parent a; cb_x := vx; cb_y := vy;
             cb_callback := chb_callback a;
             cb_extra_args := match chb_args a with None => [] | Some l => l end;
             cb_checked := chb_checked a; cb_radio := radio a;
             cb_expand_width := expand_width a |} w
    | _, _ =>
        match raw w (x a) (y a) with
        | Some e => raise e w
        | None => alloc OForeign w
        end
    end.

Definition __init__ (self : ref) (a : kwargs) : M unit :=
  DebugObject_init self ;;;
  c <- checkbox_call a ;;
  setattr_checkbox self c ;;;
  lx <- py_add (x a) 26 ;;
  ly <- py_add (y a) 10 ;;
  q <- py_floordiv (text_size a) 4 ;;
  t <- BetterOnscreenText tk
         {| tx_x := lx; tx_y := ly + q;
            tx_text := text a; tx_align := "left"; tx_parent := parent a;
            tx_size := py_int (text_size a);
            tx_color := match text_color a with None => Vec3_fill 1 | Some c => c end;
            tx_may_change := true |} ;;
  setattr_text self t ;;;
  n <- getattr_checkbox self ;;
  node_bind n WITHIN {| bm_self := self; bm_func := on_node_enter |} ;;;
  n <- getattr_checkbox self ;;
  node_bind n WITHOUT {| bm_self := self; bm_func := on_node_leave |}.

(** The call [BetterLabeledCheckbox(...)]. *)
Definition new (a : kwargs) : M ref :=
  self <- alloc (OLabeled {| _checkbox := None; _text := None |}) ;;
  __init__ self a ;;;
  ret self.
End Methods.

End Dyn.

(** ** The host event system *)

(** Calling a bound method with an argument list. *)
Definition call_bound (h : bound_method) (args : list pyval) : M pyval :=
  match bm_func h with
  | on_node_enter => BLC._on_node_enter (bm_self h) args
  | on_node_leave => BLC._on_node_leave (bm_self h) args
  end.

Fixpoint find_binding (ev : gui_event) (l : list (gui_event * bound_method))
  : option bound_method :=
  match l with
  | [] => None
  | (ev', h) :: l' => if gui_event_eqb ev ev' then Some h else find_binding ev l'
  end.

(** The pointer enters ([WITHIN]) or leaves ([WITHOUT]) the hit region of
    the checkbox [c]: the handler bound to the event, if any, is called
    with the arguments the toolkit supplies. *)
Definition dispatch (c : ref) (ev : gui_event) (args : list pyval) : M pyval :=
  fun w =>
    match heap w !! c with
    | Some (OCheckbox b) =>
        match find_binding ev (bindings (chk_node b)) with
        | Some h => call_bound h args w
        | None => (Ok PyNone, w)
        end
    | _ => raise (AttributeError "_node") w
    end.

(** A hover notification, with the arguments it carries. *)
Inductive hover :=
| Enter (args : list pyval)
| Leave (args : list pyval).

Definition handle (self : ref) (ev : hover) : M pyval :=
  match ev with
  | Enter args => BLC._on_node_enter self args
  | Leave args => BLC._on_node_leave self args
  end.

(** A sequence of hover notifications, handled in order. *)
Fixpoint handle_all (self : ref) (evs : list hover) : M unit :=
  match evs with
  | [] => ret tt
  | ev :: evs' => handle self ev ;;; handle_all self evs'
  end.

(** ** Observations *)

Definition checkbox_ref (w : world) (self : ref) : option ref :=
  match heap w !! self with
  | Some (OLabeled l) => _checkbox l
  | _ => None
  end.

Definition label_ref (w : world) (self : ref) : option ref :=
  match heap w !! self with
  | Some (OLabeled l) => _text l
  | _ => None
  end.

Definition the_checkbox (w : world) (self : ref) : option Checkbox :=
  match checkbox_ref w self with
  | Some c => match heap w !! c with Some (OCheckbox b) => Some b | _ => None end
  | None => None
  end.

Definition the_label (w : world) (self : ref) : option OnscreenText :=
  match label_ref w self with
  | Some t => match heap w !! t with Some (OText l) => Some l | _ => None end
  | None => None
  end.

(** The label's foreground colour, [self._text._node["fg"]]. *)
Definition label_fg (w : world) (self : ref) : option colour :=
  match the_label w self with
  | Some l => ot_node l !! "fg"
  | None => None
  end.

(** The empty world, and two concrete toolkits: one that accepts every
    call, and one whose primitives insist on a parent that is [None] or a
    node object. *)
Definition w_empty : world := {| heap := ∅; stdout := [] |}.

Definition tk_any : Toolkit :=
  {| checkbox_rejects := fun _ _ => None; text_rejects := fun _ _ => None |}.

Definition bad_parent (p : pyval) : option exn :=
  match p with
  | PyNone | PyObj _ => None
  | _ => Some (ToolkitError "invalid parent")
  end.

Definition tk_strict : Toolkit :=
  {| checkbox_rejects := fun _ a => bad_parent (cb_parent a);
     text_rejects := fun _ a =>
       if (tx_size a <=? 0)%Z then Some (ToolkitError "invalid font size")
       else bad_parent (tx_parent a) |}.

(** ** Vocabulary of the statements *)

Definition set_heap (w : world) (h : gmap ref obj) : world :=
  {| heap := h; stdout := stdout w |}.

(** The checkbox object built from the call [a], with the bindings [bs]
    on its node. *)
Definition cb_built (a : BLC.kwargs) (bs : list (gui_event * bound_method)) : obj :=
  OCheckbox {| chk_conf := BLC.checkbox_call a; chk_node := {| bindings := bs |} |}.

(** The two bindings [__init__] registers, most recent first. *)
Definition hover_bindings (self : ref) : list (gui_event * bound_method) :=
  [(WITHOUT, {| bm_self := self; bm_func := on_node_leave |});
   (WITHIN, {| bm_self := self; bm_func := on_node_enter |})].

(** The colour a hover notification leaves on the label. *)
Definition hover_colour (ev : hover) : colour :=
  match ev with
  | Enter _ => Tuple4 (1#2) (1#2) (1#2) 1
  | Leave _ => Tuple4 (2#5) (2#5) (2#5) 1
  end.

(** The diagnostic line a hover notification prints. *)
Definition hover_trace (ev : hover) : string :=
  match ev with
  | Enter _ => "node enter"
  | Leave _ => "node leave"
  end.

(** Two notifications are of the same kind when they reach the same
    handler, whatever their arguments. *)
Definition same_handler (e1 e2 : hover) : bool :=
  match e1, e2 with
  | Enter _, Enter _ | Leave _, Leave _ => true
  | _, _ => false
  end.

(** [new] returned [self] in [w'], having created the checkbox [c] and
    the label [t]. *)
Record Built (a : BLC.kwargs) (w : world) (self : ref) (w' : world) (c t : ref) : Prop := {
  built_self_new : heap w !! self = None;
  built_c_new : heap w !! c = None;
  built_t_new : heap w !! t = None;
  built_c_self : c ≠ self;
  built_t_self : t ≠ self;
  built_t_c : t ≠ c;
  built_self : heap w' !! self = Some (OLabeled {| _checkbox := Some c; _text := Some t |});
  built_c : heap w' !! c = Some (cb_built a (hover_bindings self));
  built_t : heap w' !! t = Some (OText (text_of_args (BLC.text_call a)));
  built_frame : forall r, r ≠ self -> r ≠ c -> r ≠ t -> heap w' !! r = heap w !! r;
  built_stdout : stdout w' = stdout w
}.

(** What stays true of a labeled checkbox for as long as only its own
    methods touch it: only the foreground colour of the label moves. *)
Record Live (a : BLC.kwargs) (self c t : ref) (w : world) : Prop := {
  live_self : heap w !! self = Some (OLabeled {| _checkbox := Some c; _text := Some t |});
  live_c : heap w !! c = Some (cb_built a (hover_bindings self));
  live_t : exists fg, heap w !! t =
             Some (OText (ot_setitem "fg" fg (text_of_args (BLC.text_call a))));
  live_c_self : c ≠ self;
  live_t_self : t ≠ self;
  live_t_c : t ≠ c
}.

(** The worlds a labeled checkbox constructed by [new a] in [w0] can be
    in: the one [new] returns, and those reached by hover callbacks. *)
Inductive Reachable (tk : Toolkit) (a : BLC.kwargs) (w0 : world) (self : ref)
  : world -> Prop :=
| reach_new w :
    BLC.new tk a w0 = (Ok self, w) -> Reachable tk a w0 self w
| reach_hover w ev r w' :
    Reachable tk a w0 self w -> handle self ev w = (r, w') ->
    Reachable tk a w0 self w'.

(** The statement about a construction with all-default arguments, with
    the position of the label left open. *)
Definition defaults_yield (px py : Z) : Prop :=
  forall tk w self w',
    BLC.new tk BLC.defaults w = (Ok self, w') ->
    exists b l,
      the_checkbox w' self = Some b /\
      cb_checked (chk_conf b) = true /\
      (cb_x (chk_conf b), cb_y (chk_conf b)) = (0, 0) /\
      the_label w' self = Some l /\
      ot_text l = "" /\
      ot_node l !! "fg" = Some (Vec3 1 1 1) /\
      (ot_x l, ot_y l) = (px, py).



(** The default construction in the empty world, with a toolkit that
    accepts every call. *)
Definition w_default : world := snd (BLC.new tk_any BLC.defaults w_empty).

(** * Properties *)

(** ** The monad and the heap operations *)

Lemma fresh_lookup (h : gmap ref obj) : h !! fresh (dom h) = None.
Proof. apply not_elem_of_dom, is_fresh. Qed.

Lemma fresh_ne (h : gmap ref obj) (r : ref) :
  is_Some (h !! r) -> fresh (dom h) ≠ r.
Proof. intros [o H] E. rewrite <- E, fresh_lookup in H. discriminate. Qed.

Lemma bind_ok {A B} (m : M A) (k : A -> M B) w a w' :
  m w = (Ok a, w') -> bind m k w = k a w'.
Proof. unfold bind. intros ->. reflexivity. Qed.

Lemma bind_raise {A B} (m : M A) (k : A -> M B) w e w' :
  m w = (Raise e, w') -> bind m k w = (Raise e, w').
Proof. unfold bind. intros ->. reflexivity. Qed.

Lemma alloc_ok o w r :
  r = fresh (dom (heap w)) ->
  alloc o w = (Ok r, set_heap w (<[r := o]> (heap w))).
Proof. intros ->. reflexivity. Qed.

Lemma setattr_checkbox_ok self r w l :
  heap w !! self = Some (OLabeled l) ->
  setattr_checkbox self r w =
    (Ok tt, set_heap w (<[self := OLabeled {| _checkbox := Some r; _text := _text l |}]> (heap w))).
Proof. unfold setattr_checkbox. intros ->. reflexivity. Qed.

Lemma setattr_text_ok self r w l :
  heap w !! self = Some (OLabeled l) ->
  setattr_text self r w =
    (Ok tt, set_heap w (<[self := OLabeled {| _checkbox := _checkbox l; _text := Some r |}]> (heap w))).
Proof. unfold setattr_text. intros ->. reflexivity. Qed.

Lemma getattr_checkbox_ok self w c t :
  heap w !! self = Some (OLabeled {| _checkbox := Some c; _text := t |}) ->
  getattr_checkbox self w = (Ok c, w).
Proof. unfold getattr_checkbox. intros ->. reflexivity. Qed.

Lemma getattr_text_ok self w c t :
  heap w !! self = Some (OLabeled {| _checkbox := c; _text := Some t |}) ->
  getattr_text self w = (Ok t, w).
Proof. unfold getattr_text. intros ->. reflexivity. Qed.

Lemma node_bind_ok r ev h w b :
  heap w !! r = Some (OCheckbox b) ->
  node_bind r ev h w =
    (Ok tt, set_heap w (<[r := OCheckbox {| chk_conf := chk_conf b;
                           chk_node := {| bindings := (ev, h) :: bindings (chk_node b) |} |}]> (heap w))).
Proof. unfold node_bind. intros ->. reflexivity. Qed.

Lemma node_setitem_ok r k v w t :
  heap w !! r = Some (OText t) ->
  node_setitem r k v w = (Ok tt, set_heap w (<[r := OText (ot_setitem k v t)]> (heap w))).
Proof. unfold node_setitem. intros ->. reflexivity. Qed.

Lemma ot_setitem_twice k v v' t :
  ot_setitem k v (ot_setitem k v' t) = ot_setitem k v t.
Proof. unfold ot_setitem; simpl. by rewrite insert_insert_eq. Qed.

Lemma text_of_args_fg a :
  ot_setitem "fg" (tx_color a) (text_of_args a) = text_of_args a.
Proof. unfold ot_setitem, text_of_args; simpl. by rewrite insert_singleton_eq. Qed.

(** ** The constructor, step by step *)

Lemma init_unfold tk a w self l c w2 t w3 :
  heap w !! self = Some (OLabeled l) ->
  c = fresh (dom (heap w)) ->
  w2 = set_heap w (<[self := OLabeled {| _checkbox := Some c; _text := _text l |}]>
                     (<[c := cb_built a [] ]> (heap w))) ->
  t = fresh (dom (heap w2)) ->
  w3 = set_heap w
         (<[c := cb_built a (hover_bindings self)]>
            (<[self := OLabeled {| _checkbox := Some c; _text := Some t |}]>
               (<[t := OText (text_of_args (BLC.text_call a))]> (heap w2)))) ->
  BLC.__init__ tk self a w =
    match checkbox_rejects tk w (BLC.checkbox_call a) with
    | Some e => (Raise e, w)
    | None =>
        match text_rejects tk w2 (BLC.text_call a) with
        | Some e => (Raise e, w2)
        | None => (Ok tt, w3)
        end
    end.
Proof.
  intros Hself Hc Hw2 Ht Hw3.
  assert (Hcs : c ≠ self) by (subst c; apply fresh_ne; eauto).
  assert (H2s : heap w2 !! self
                = Some (OLabeled {| _checkbox := Some c; _text := _text l |})).
  { subst w2. apply lookup_insert_eq. }
  assert (H2c : heap w2 !! c = Some (cb_built a [])).
  { subst w2. simpl. rewrite lookup_insert_ne, lookup_insert_eq by done. done. }
  assert (Hts : t ≠ self) by (subst t; apply fresh_ne; eauto).
  assert (Htc : t ≠ c) by (subst t; apply fresh_ne; eauto).
  unfold BLC.__init__, DebugObject_init.
  rewrite (bind_ok (ret tt) _ w tt w) by reflexivity.
  unfold BetterCheckbox at 1. unfold bind at 1.
  destruct (checkbox_rejects tk w _) as [e|]; [reflexivity|].
  rewrite (alloc_ok _ w c Hc).
  erewrite bind_ok;
    [|apply setattr_checkbox_ok; simpl; rewrite lookup_insert_ne by done; exact Hself].
  simpl heap. fold (cb_built a []).
  replace (set_heap (set_heap w _) _) with w2 by (subst w2; reflexivity).
  unfold BetterOnscreenText at 1. unfold bind at 1.
  destruct (text_rejects tk w2 _) as [e|]; [reflexivity|].
  rewrite (alloc_ok _ w2 t Ht).
  erewrite bind_ok;
    [|apply setattr_text_ok; simpl; rewrite lookup_insert_ne by done; exact H2s].
  simpl.
  erewrite bind_ok; [|eapply getattr_checkbox_ok; simpl; apply lookup_insert_eq].
  erewrite bind_ok;
    [|apply node_bind_ok; simpl; rewrite !lookup_insert_ne by done; exact H2c].
  erewrite bind_ok;
    [|eapply getattr_checkbox_ok; simpl; rewrite lookup_insert_ne by done;
      apply lookup_insert_eq].
  erewrite node_bind_ok; [|simpl; apply lookup_insert_eq].
  simpl. rewrite insert_insert_eq. subst w3. unfold set_heap, cb_built, hover_bindings.
  simpl. replace (stdout w2) with (stdout w) by (subst w2; reflexivity).
  reflexivity.
Qed.

Lemma new_unfold tk a w s w1 c w2 t w3 :
  s = fresh (dom (heap w)) ->
  w1 = set_heap w (<[s := OLabeled {| _checkbox := None; _text := None |}]> (heap w)) ->
  c = fresh (dom (heap w1)) ->
  w2 = set_heap w (<[s := OLabeled {| _checkbox := Some c; _text := None |}]>
                     (<[c := cb_built a [] ]> (heap w1))) ->
  t = fresh (dom (heap w2)) ->
  w3 = set_heap w
         (<[c := cb_built a (hover_bindings s)]>
            (<[s := OLabeled {| _checkbox := Some c; _text := Some t |}]>
               (<[t := OText (text_of_args (BLC.text_call a))]> (heap w2)))) ->
  BLC.new tk a w =
    match checkbox_rejects tk w1 (BLC.checkbox_call a) with
    | Some e => (Raise e, w1)
    | None =>
        match text_rejects tk w2 (BLC.text_call a) with
        | Some e => (Raise e, w2)
        | None => (Ok s, w3)
        end
    end.
Proof.
  intros Hs Hw1 Hc Hw2 Ht Hw3.
  unfold BLC.new.
  rewrite (bind_ok _ _ _ _ _ (alloc_ok _ w s Hs)). rewrite <- Hw1.
  unfold bind at 1.
  rewrite (init_unfold tk a w1 s {| _checkbox := None; _text := None |} c w2 t w3);
    try assumption.
  - destruct (checkbox_rejects tk w1 _); [reflexivity|].
    destruct (text_rejects tk w2 _); reflexivity.
  - subst w1. apply lookup_insert_eq.
  - subst w2 w1. reflexivity.
  - subst w3 w1. reflexivity.
Qed.

(** The three outcomes of a construction. *)
Lemma new_cases tk a w :
  (exists e wp w', BLC.new tk a w = (Raise e, w') /\
     checkbox_rejects tk wp (BLC.checkbox_call a) = Some e) \/
  (exists e wp w', BLC.new tk a w = (Raise e, w') /\
     text_rejects tk wp (BLC.text_call a) = Some e) \/
  (exists self w' c t wc wt, BLC.new tk a w = (Ok self, w') /\ Built a w self w' c t /\
     checkbox_rejects tk wc (BLC.checkbox_call a) = None /\
     text_rejects tk wt (BLC.text_call a) = None).
Proof.
  pose (s := fresh (dom (heap w))).
  pose (w1 := set_heap w (<[s := OLabeled {| _checkbox := None; _text := None |}]> (heap w))).
  pose (c := fresh (dom (heap w1))).
  pose (w2 := set_heap w (<[s := OLabeled {| _checkbox := Some c; _text := None |}]>
                            (<[c := cb_built a [] ]> (heap w1)))).
  pose (t := fresh (dom (heap w2))).
  pose (w3 := set_heap w
         (<[c := cb_built a (hover_bindings s)]>
            (<[s := OLabeled {| _checkbox := Some c; _text := Some t |}]>
               (<[t := OText (text_of_args (BLC.text_call a))]> (heap w2))))).
  rewrite (new_unfold tk a w s w1 c w2 t w3) by reflexivity.
  destruct (checkbox_rejects tk w1 _) as [e|] eqn:Ec.
  { left. eauto. }
  destruct (text_rejects tk w2 _) as [e|] eqn:Et.
  { right; left. eauto. }
  right; right. exists s, w3, c, t, w1, w2.
  assert (Hs : heap w !! s = None) by apply fresh_lookup.
  assert (Hc1 : heap w1 !! c = None) by apply fresh_lookup.
  assert (Ht2 : heap w2 !! t = None) by apply fresh_lookup.
  assert (Hcs : c ≠ s).
  { apply fresh_ne. subst w1; simpl. rewrite lookup_insert_eq. eauto. }
  assert (Hts : t ≠ s).
  { apply fresh_ne. subst w2; simpl. rewrite lookup_insert_eq. eauto. }
  assert (Htc : t ≠ c).
  { apply fresh_ne. subst w2; simpl.
    rewrite lookup_insert_ne, lookup_insert_eq by done. eauto. }
  assert (Hc : heap w !! c = None).
  { subst w1; simpl in Hc1. by rewrite lookup_insert_ne in Hc1. }
  assert (Ht : heap w !! t = None).
  { subst w2 w1; simpl in Ht2. by rewrite !lookup_insert_ne in Ht2. }
  repeat split; try done.
  - subst w3; simpl. rewrite lookup_insert_ne, lookup_insert_eq by done. done.
  - subst w3; simpl. by rewrite lookup_insert_eq.
  - subst w3; simpl. rewrite !lookup_insert_ne, lookup_insert_eq by done. done.
  - intros r Hrs Hrc Hrt. subst w3 w2 w1; simpl. by rewrite !lookup_insert_ne.
Qed.

Lemma new_built tk a w self w' :
  BLC.new tk a w = (Ok self, w') -> exists c t, Built a w self w' c t.
Proof.
  intros H.
  destruct (new_cases tk a w) as [(e & wp & w1 & E & _)|[(e & wp & w1 & E & _)|
    (s & w1 & c & t & wc & wt & E & B & _)]]; rewrite E in H; try discriminate.
  injection H as <- <-. eauto.
Qed.

(** ** The hover callbacks on a live instance *)

Lemma handle_eq self ev w c t lab :
  heap w !! self = Some (OLabeled {| _checkbox := c; _text := Some t |}) ->
  heap w !! t = Some (OText lab) ->
  handle self ev w =
    (Ok PyNone,
     {| heap := <[t := OText (ot_setitem "fg" (hover_colour ev) lab)]> (heap w);
        stdout := (stdout w ++ [hover_trace ev])%list |}).
Proof.
  intros Hs Ht.
  destruct ev as [args|args]; simpl;
    unfold BLC._on_node_enter, BLC._on_node_leave;
    (erewrite bind_ok; [|reflexivity]);
    (erewrite bind_ok; [|eapply getattr_text_ok; exact Hs]);
    (erewrite bind_ok; [|eapply node_setitem_ok; exact Ht]);
    reflexivity.
Qed.

Lemma built_live a w self w' c t :
  Built a w self w' c t -> Live a self c t w'.
Proof.
  intros [].
  split; try done.
  exists (tx_color (BLC.text_call a)). by rewrite text_of_args_fg.
Qed.

Lemma live_label a self c t w :
  Live a self c t w ->
  exists lab, heap w !! t = Some (OText lab) /\ the_label w self = Some lab /\
    exists fg, lab = ot_setitem "fg" fg (text_of_args (BLC.text_call a)).
Proof.
  intros [Hs _ [fg Ht] _ _ _].
  eexists. split; [exact Ht|]. split; [|eauto].
  unfold the_label, label_ref. rewrite Hs; simpl. by rewrite Ht.
Qed.

Lemma handle_live a self c t w ev r w' :
  Live a self c t w -> handle self ev w = (r, w') ->
  r = Ok PyNone /\ Live a self c t w' /\
  exists lab, heap w !! t = Some (OText lab) /\
    heap w' = <[t := OText (ot_setitem "fg" (hover_colour ev) lab)]> (heap w) /\
    stdout w' = (stdout w ++ [hover_trace ev])%list.
Proof.
  intros L H.
  pose proof L as [Hs Hc [fg Ht] Hcs Hts Htc].
  rewrite (handle_eq self ev w _ _ _ Hs Ht) in H. injection H as <- <-.
  split; [done|]. split.
  - split; simpl; try done.
    + by rewrite lookup_insert_ne.
    + by rewrite lookup_insert_ne.
    + exists (hover_colour ev). by rewrite lookup_insert_eq, ot_setitem_twice.
  - eauto.
Qed.

Lemma reachable_live tk a w0 self w1 c t w :
  BLC.new tk a w0 = (Ok self, w1) -> Built a w0 self w1 c t ->
  Reachable tk a w0 self w -> Live a self c t w.
Proof.
  intros Hn B R. induction R as [w E|w ev r w' _ IH H].
  - rewrite Hn in E. injection E as <-. by apply (built_live a w0 self w1).
  - by destruct (handle_live _ _ _ _ _ _ _ _ IH H) as (_ & L & _).
Qed.

Lemma reachable_built tk a w0 self w :
  Reachable tk a w0 self w ->
  exists w1 c t, BLC.new tk a w0 = (Ok self, w1) /\ Built a w0 self w1 c t /\
    Live a self c t w.
Proof.
  intros R.
  assert (exists w1, BLC.new tk a w0 = (Ok self, w1)) as [w1 Hn].
  { induction R; eauto. }
  destruct (new_built _ _ _ _ _ Hn) as (c & t & B).
  exists w1, c, t. eauto using reachable_live.
Qed.

Lemma handle_all_live a self c t evs : forall w,
  Live a self c t w ->
  exists w', handle_all self evs w = (Ok tt, w') /\ Live a self c t w'.
Proof.
  induction evs as [|ev evs IH]; intros w L; simpl.
  - by exists w.
  - destruct (handle self ev w) as [r w1] eqn:H.
    destruct (handle_live _ _ _ _ _ _ _ _ L H) as (-> & L1 & _).
    destruct (IH w1 L1) as (w' & E & L').
    exists w'. split; [|done]. by rewrite (bind_ok _ _ _ _ _ H).
Qed.

Lemma handle_all_app self evs1 evs2 w w1 :
  handle_all self evs1 w = (Ok tt, w1) ->
  handle_all self (evs1 ++ evs2) w = handle_all self evs2 w1.
Proof.
  revert w. induction evs1 as [|ev evs1 IH]; intros w; simpl.
  - by intros [= <-].
  - unfold bind at 1 2. destruct (handle self ev w) as [[r|e] w2]; [|done].
    apply IH.
Qed.

Lemma live_refs a self c t w :
  Live a self c t w ->
  checkbox_ref w self = Some c /\ label_ref w self = Some t /\
  the_checkbox w self = Some {| chk_conf := BLC.checkbox_call a;
                                chk_node := {| bindings := hover_bindings self |} |}.
Proof.
  intros [Hs Hc _ _ _ _].
  unfold the_checkbox, checkbox_ref, label_ref. rewrite Hs; simpl.
  by rewrite Hc.
Qed.

Lemma handle_fg a self c t w ev r w' :
  Live a self c t w -> handle self ev w = (r, w') ->
  label_fg w' self = Some (hover_colour ev).
Proof.
  intros L H.
  destruct (handle_live _ _ _ _ _ _ _ _ L H) as (_ & L' & lab & Ht & Hh & _).
  destruct (live_refs _ _ _ _ _ L') as (_ & Hl & _).
  unfold label_fg, the_label. rewrite Hl, Hh, lookup_insert_eq. simpl.
  by rewrite lookup_insert_eq.
Qed.

(** The bindings made by [__init__] route the two pointer events of the
    checkbox's node to the two callbacks. *)
Lemma dispatch_bound a self c t w args :
  Live a self c t w ->
  dispatch c WITHIN args w = BLC._on_node_enter self args w /\
  dispatch c WITHOUT args w = BLC._on_node_leave self args w.
Proof.
  intros [_ Hc _ _ _ _]. unfold dispatch. rewrite Hc. simpl. done.
Qed.

(** ** The claims *)

(** C1: for every [x], [y] and [text_size] passed to the constructor, the
    label is created at [(x + 26, y + 10 + text_size // 4)], that is 26 to
    the right of the checkbox and [10 + floor(text_size / 4)] below it,
    left-aligned, with the given text, size and colour (white when none
    was given), and flagged as mutable. *)
Theorem label_created_at_offset tk a w self w' :
  BLC.new tk a w = (Ok self, w') ->
  exists b l,
    the_checkbox w' self = Some b /\ the_label w' self = Some l /\
    ot_x l = BLC.x a + 26 /\
    ot_y l = BLC.y a + 10 + BLC.text_size a / 4 /\
    ot_x l - cb_x (chk_conf b) = 26 /\
    ot_y l - cb_y (chk_conf b) = 10 + BLC.text_size a / 4 /\
    4 * (BLC.text_size a / 4) <= BLC.text_size a < 4 * (BLC.text_size a / 4) + 4 /\
    ot_align l = "left" /\
    ot_text l = BLC.text a /\
    ot_size l = BLC.text_size a /\
    ot_node l !! "fg" = Some (BLC.text_color_or_white a) /\
    (forall col, BLC.text_color a = Some col -> ot_node l !! "fg" = Some col) /\
    ot_may_change l = true.
Proof.
  intros H.
  destruct (new_built _ _ _ _ _ H) as (c & t & B).
  pose proof (built_live _ _ _ _ _ _ B) as L.
  destruct (live_refs _ _ _ _ _ L) as (_ & Hl & Hb).
  exists {| chk_conf := BLC.checkbox_call a;
            chk_node := {| bindings := hover_bindings self |} |},
         (text_of_args (BLC.text_call a)).
  split; [exact Hb|]. split.
  { unfold the_label. rewrite Hl. by rewrite (built_t _ _ _ _ _ _ B). }
  simpl. repeat split; try done; try lia.
  - apply (Z.mul_div_le (BLC.text_size a) 4). lia.
  - pose proof (Z.mul_succ_div_gt (BLC.text_size a) 4). lia.
  - intros col Hcol. rewrite lookup_singleton_eq.
    unfold BLC.text_color_or_white. by rewrite Hcol.
Qed.

Lemma label_created_at_offset_witness :
  exists b l,
    the_checkbox w_default 1%positive = Some b /\
    the_label w_default 1%positive = Some l /\
    ot_x l = 0 + 26 /\
    ot_y l = 0 + 10 + 18 / 4 /\
    ot_x l - cb_x (chk_conf b) = 26 /\
    ot_y l - cb_y (chk_conf b) = 10 + 18 / 4 /\
    4 * (18 / 4) <= 18 < 4 * (18 / 4) + 4 /\
    ot_align l = "left" /\
    ot_text l = "" /\
    ot_size l = 18 /\
    ot_node l !! "fg" = Some (Vec3 1 1 1) /\
    (forall col, None = Some col -> ot_node l !! "fg" = Some col) /\
    ot_may_change l = true.
Proof.
  apply (label_created_at_offset tk_any BLC.defaults w_empty 1%positive w_default).
  vm_compute. reflexivity.
Defined.

(** C2: invoking the hover-enter handler sets the label's foreground
    colour to exactly (0.5, 0.5, 0.5, 1.0), whatever colour was passed at
    construction and whatever hover callbacks ran before; the handler
    returns [None]. *)
Theorem hover_enter_sets_mid_grey tk a w0 self w args :
  Reachable tk a w0 self w ->
  exists w',
    BLC._on_node_enter self args w = (Ok PyNone, w') /\
    label_fg w' self = Some (Tuple4 (1#2) (1#2) (1#2) 1).
Proof.
  intros R.
  destruct (reachable_built _ _ _ _ _ R) as (w1 & c & t & _ & _ & L).
  destruct (BLC._on_node_enter self args w) as [r w'] eqn:H.
  change (handle self (Enter args) w = (r, w')) in H.
  destruct (handle_live _ _ _ _ _ _ _ _ L H) as (-> & _).
  exists w'. split; [done|].
  apply (handle_fg _ _ _ _ _ _ _ _ L H).
Qed.

Lemma hover_enter_sets_mid_grey_witness :
  exists w',
    BLC._on_node_enter 1%positive [PyObj 2%positive] w_default = (Ok PyNone, w') /\
    label_fg w' 1%positive = Some (Tuple4 (1#2) (1#2) (1#2) 1).
Proof.
  apply (hover_enter_sets_mid_grey tk_any BLC.defaults w_empty).
  apply reach_new. vm_compute. reflexivity.
Defined.

(** C3: invoking the hover-leave handler sets the label's foreground
    colour to exactly (0.4, 0.4, 0.4, 1.0), for every colour passed at
    construction.  Neither handler reads the colour the label has (the
    outcome is the same after the colour was overwritten with any [v]),
    and neither restores the construction-time colour: the colour a
    handler leaves is the handler's own constant, which differs from the
    colour of the freshly built label unless the two happen to coincide. *)
Theorem hover_leave_sets_dark_grey tk a w0 self w1 w args :
  BLC.new tk a w0 = (Ok self, w1) ->
  Reachable tk a w0 self w ->
  (exists w',
     BLC._on_node_leave self args w = (Ok PyNone, w') /\
     label_fg w' self = Some (Tuple4 (2#5) (2#5) (2#5) 1)) /\
  label_fg w1 self = Some (BLC.text_color_or_white a) /\
  (forall ev r w',
     handle self ev w = (r, w') ->
     label_fg w' self = Some (hover_colour ev) /\
     (BLC.text_color_or_white a ≠ hover_colour ev ->
      label_fg w' self ≠ label_fg w1 self)) /\
  (forall ev v, exists t wv,
     label_ref w self = Some t /\
     node_setitem t "fg" v w = (Ok tt, wv) /\
     heap (snd (handle self ev wv)) = heap (snd (handle self ev w))).
Proof.
  intros Hn R.
  destruct (new_built _ _ _ _ _ Hn) as (c & t & B).
  pose proof (reachable_live _ _ _ _ _ _ _ _ Hn B R) as L.
  assert (Hfg1 : label_fg w1 self = Some (BLC.text_color_or_white a)).
  { pose proof (built_live _ _ _ _ _ _ B) as L1.
    destruct (live_refs _ _ _ _ _ L1) as (_ & Hl & _).
    unfold label_fg, the_label. rewrite Hl, (built_t _ _ _ _ _ _ B). simpl.
    by rewrite lookup_singleton_eq. }
  split; [|split; [exact Hfg1|split]].
  - destruct (BLC._on_node_leave self args w) as [r w'] eqn:H.
    change (handle self (Leave args) w = (r, w')) in H.
    destruct (handle_live _ _ _ _ _ _ _ _ L H) as (-> & _).
    exists w'. split; [done|]. apply (handle_fg _ _ _ _ _ _ _ _ L H).
  - intros ev r w' H.
    pose proof (handle_fg _ _ _ _ _ _ _ _ L H) as Hfg.
    split; [exact Hfg|]. rewrite Hfg, Hfg1. congruence.
  - intros ev v.
    pose proof L as [Hs Hc [fg Ht] Hcs Hts Htc].
    destruct (live_refs _ _ _ _ _ L) as (_ & Hl & _).
    exists t. eexists. split; [exact Hl|]. split.
    { apply (node_setitem_ok _ _ _ _ _ Ht). }
    erewrite (handle_eq self ev w); [|exact Hs|exact Ht].
    erewrite (handle_eq self ev (set_heap w _));
      [|simpl; rewrite lookup_insert_ne by done; exact Hs
       |simpl; apply lookup_insert_eq].
    simpl. by rewrite insert_insert_eq, !ot_setitem_twice.
Qed.

Lemma hover_leave_sets_dark_grey_witness :
  exists w',
    BLC._on_node_leave 1%positive [] w_default = (Ok PyNone, w') /\
    label_fg w' 1%positive = Some (Tuple4 (2#5) (2#5) (2#5) 1).
Proof.
  refine (proj1 (hover_leave_sets_dark_grey tk_any BLC.defaults w_empty
                   1%positive w_default w_default [] _ _)).
  - vm_compute. reflexivity.
  - apply reach_new. vm_compute. reflexivity.
Defined.

(** C4: constructing with [chb_args=None] is the same computation as
    constructing with [chb_args=[]], all other inputs equal: the same
    outcome, the same instance and the same heap.  It does not fail when
    the two primitives accept the calls made with the empty list. *)
Theorem chb_args_none_is_empty tk a w :
  BLC.new tk (BLC.with_chb_args None a) w
  = BLC.new tk (BLC.with_chb_args (Some []) a) w /\
  ((forall wp, checkbox_rejects tk wp
                 (BLC.checkbox_call (BLC.with_chb_args (Some []) a)) = None) ->
   (forall wp, text_rejects tk wp
                 (BLC.text_call (BLC.with_chb_args (Some []) a)) = None) ->
   exists self w', BLC.new tk (BLC.with_chb_args None a) w = (Ok self, w')).
Proof.
  split; [reflexivity|].
  intros Hc Ht.
  destruct (new_cases tk (BLC.with_chb_args None a) w)
    as [(e & wp & w1 & _ & E)|[(e & wp & w1 & _ & E)|(s & w1 & _ & _ & _ & _ & E & _)]].
  - change (BLC.checkbox_call (BLC.with_chb_args None a))
      with (BLC.checkbox_call (BLC.with_chb_args (Some []) a)) in E.
    rewrite Hc in E. discriminate.
  - change (BLC.text_call (BLC.with_chb_args None a))
      with (BLC.text_call (BLC.with_chb_args (Some []) a)) in E.
    rewrite Ht in E. discriminate.
  - eauto.
Qed.

Lemma chb_args_none_is_empty_witness :
  exists self w',
    BLC.new tk_strict (BLC.with_chb_args None BLC.defaults) w_empty = (Ok self, w').
Proof.
  apply (proj2 (chb_args_none_is_empty tk_strict BLC.defaults w_empty)).
  - intros wp. reflexivity.
  - intros wp. reflexivity.
Defined.

(** C5: constructing with [text_color=None] is the same computation as
    constructing with [text_color=Vec3(1, 1, 1)], all other inputs equal. *)
Theorem text_color_none_is_white tk a w :
  BLC.new tk (BLC.with_text_color None a) w
  = BLC.new tk (BLC.with_text_color (Some (Vec3 1 1 1)) a) w.
Proof. reflexivity. Qed.

(** C6, as stated: the label of a default construction at (0, 14).  The
    constructor adds 26 to [x], so the label is at (26, 14). *)
Lemma defaults_label_not_at_0_14 : ~ defaults_yield 0 14.
Proof.
  intros H.
  destruct (H tk_any w_empty 1%positive w_default) as (b & l & _ & _ & _ & Hl & _ & _ & Hp).
  { vm_compute. reflexivity. }
  vm_compute in Hl. injection Hl as <-. discriminate Hp.
Qed.

(** C6, amended: constructing with all-default arguments yields a
    checkbox at (0, 0) in the checked state and a label with empty text
    and white colour, positioned at (0 + 26, 0 + 10 + 18 // 4) = (26, 14). *)
Theorem defaults_label_at_26_14 : defaults_yield 26 14.
Proof.
  intros tk w self w' H.
  destruct (new_built _ _ _ _ _ H) as (c & t & B).
  destruct (live_refs _ _ _ _ _ (built_live _ _ _ _ _ _ B)) as (_ & Hl & Hb).
  exists {| chk_conf := BLC.checkbox_call BLC.defaults;
            chk_node := {| bindings := hover_bindings self |} |},
         (text_of_args (BLC.text_call BLC.defaults)).
  split; [exact Hb|]. split; [reflexivity|]. split; [reflexivity|].
  split.
  { unfold the_label. by rewrite Hl, (built_t _ _ _ _ _ _ B). }
  split; [reflexivity|]. split; [|reflexivity].
  simpl. apply lookup_singleton_eq.
Qed.

Lemma defaults_label_at_26_14_witness :
  exists b l,
    the_checkbox w_default 1%positive = Some b /\
    cb_checked (chk_conf b) = true /\
    (cb_x (chk_conf b), cb_y (chk_conf b)) = (0, 0) /\
    the_label w_default 1%positive = Some l /\
    ot_text l = "" /\
    ot_node l !! "fg" = Some (Vec3 1 1 1) /\
    (ot_x l, ot_y l) = (26, 14).
Proof.
  apply (defaults_label_at_26_14 tk_any w_empty 1%positive w_default).
  vm_compute. reflexivity.
Defined.

(** C7: for every constructed labeled checkbox, in the world the
    constructor returns and after any hover callbacks, [get_checkbox()]
    returns the checkbox created during construction and [get_label()]
    the label created during construction (both absent from the heap
    before it); repeated calls return the same instances and neither
    accessor changes the world. *)
Theorem accessors_return_constructed tk a w0 self w1 w :
  BLC.new tk a w0 = (Ok self, w1) ->
  Reachable tk a w0 self w ->
  exists c t,
    heap w0 !! c = None /\ heap w0 !! t = None /\ c ≠ t /\
    checkbox_ref w1 self = Some c /\ label_ref w1 self = Some t /\
    (exists b, heap w1 !! c = Some (OCheckbox b) /\ heap w !! c = Some (OCheckbox b)) /\
    (exists l l', heap w1 !! t = Some (OText l) /\ heap w !! t = Some (OText l')) /\
    BLC.get_checkbox self w = (Ok c, w) /\
    BLC.get_label self w = (Ok t, w) /\
    (c1 <- BLC.get_checkbox self ;; c2 <- BLC.get_checkbox self ;; ret (c1, c2)) w
      = (Ok (c, c), w) /\
    (t1 <- BLC.get_label self ;; t2 <- BLC.get_label self ;; ret (t1, t2)) w
      = (Ok (t, t), w).
Proof.
  intros Hn R.
  destruct (new_built _ _ _ _ _ Hn) as (c & t & B).
  pose proof (reachable_live _ _ _ _ _ _ _ _ Hn B R) as L.
  pose proof (built_live _ _ _ _ _ _ B) as L1.
  destruct (live_refs _ _ _ _ _ L1) as (Hc1 & Ht1 & _).
  pose proof L as [Hs Hc [fg Ht] Hcs Hts Htc].
  assert (Gc : BLC.get_checkbox self w = (Ok c, w))
    by (eapply getattr_checkbox_ok; exact Hs).
  assert (Gt : BLC.get_label self w = (Ok t, w))
    by (eapply getattr_text_ok; exact Hs).
  exists c, t.
  split; [apply (built_c_new _ _ _ _ _ _ B)|].
  split; [apply (built_t_new _ _ _ _ _ _ B)|].
  split; [congruence|].
  split; [exact Hc1|]. split; [exact Ht1|].
  split. { eexists. split; [apply (built_c _ _ _ _ _ _ B)|exact Hc]. }
  split. { do 2 eexists. split; [apply (built_t _ _ _ _ _ _ B)|exact Ht]. }
  split; [exact Gc|]. split; [exact Gt|].
  split.
  - rewrite (bind_ok _ _ _ _ _ Gc). rewrite (bind_ok _ _ _ _ _ Gc). reflexivity.
  - rewrite (bind_ok _ _ _ _ _ Gt). rewrite (bind_ok _ _ _ _ _ Gt). reflexivity.
Qed.

Lemma accessors_return_constructed_witness :
  exists c t,
    heap w_empty !! c = None /\ heap w_empty !! t = None /\ c ≠ t /\
    checkbox_ref w_default 1%positive = Some c /\
    label_ref w_default 1%positive = Some t /\
    (exists b, heap w_default !! c = Some (OCheckbox b) /\
               heap w_default !! c = Some (OCheckbox b)) /\
    (exists l l', heap w_default !! t = Some (OText l) /\
                  heap w_default !! t = Some (OText l')) /\
    BLC.get_checkbox 1%positive w_default = (Ok c, w_default) /\
    BLC.get_label 1%positive w_default = (Ok t, w_default) /\
    (c1 <- BLC.get_checkbox 1%positive ;; c2 <- BLC.get_checkbox 1%positive ;;
     ret (c1, c2)) w_default = (Ok (c, c), w_default) /\
    (t1 <- BLC.get_label 1%positive ;; t2 <- BLC.get_label 1%positive ;;
     ret (t1, t2)) w_default = (Ok (t, t), w_default).
Proof.
  apply (accessors_return_constructed tk_any BLC.defaults w_empty 1%positive
           w_default w_default).
  - vm_compute. reflexivity.
  - apply reach_new. vm_compute. reflexivity.
Defined.

(** C8: each hover handler performs exactly one write to the heap, on the
    foreground colour of the label, and leaves everything else as it
    was: every other object (the checkbox with its checked state and
    configuration among them), the two references the labeled checkbox
    owns, and the label's text, position, size, alignment and remaining
    properties.  (The diagnostic [print] goes to the console.) *)
Theorem hover_writes_only_label_fg tk a w0 self w ev r w' :
  Reachable tk a w0 self w ->
  handle self ev w = (r, w') ->
  exists t l,
    label_ref w self = Some t /\ heap w !! t = Some (OText l) /\
    heap w' = <[t := OText (ot_setitem "fg" (hover_colour ev) l)]> (heap w) /\
    (forall r', r' ≠ t -> heap w' !! r' = heap w !! r') /\
    checkbox_ref w' self = checkbox_ref w self /\
    label_ref w' self = label_ref w self /\
    the_checkbox w' self = the_checkbox w self /\
    exists l',
      the_label w' self = Some l' /\
      ot_text l' = ot_text l /\ ot_x l' = ot_x l /\ ot_y l' = ot_y l /\
      ot_size l' = ot_size l /\ ot_align l' = ot_align l /\
      ot_parent l' = ot_parent l /\ ot_may_change l' = ot_may_change l /\
      ot_node l' !! "fg" = Some (hover_colour ev) /\
      forall k, k ≠ "fg" -> ot_node l' !! k = ot_node l !! k.
Proof.
  intros R H.
  destruct (reachable_built _ _ _ _ _ R) as (w1 & c & t & _ & _ & L).
  destruct (handle_live _ _ _ _ _ _ _ _ L H) as (_ & L' & l & Ht & Hh & _).
  destruct (live_refs _ _ _ _ _ L) as (Hc0 & Hl0 & Hb0).
  destruct (live_refs _ _ _ _ _ L') as (Hc1 & Hl1 & Hb1).
  exists t, l.
  split; [exact Hl0|]. split; [exact Ht|]. split; [exact Hh|].
  split. { intros r' Hr. rewrite Hh. by rewrite lookup_insert_ne. }
  split; [congruence|]. split; [congruence|]. split; [congruence|].
  exists (ot_setitem "fg" (hover_colour ev) l).
  split. { unfold the_label. by rewrite Hl1, Hh, lookup_insert_eq. }
  simpl. repeat split; try done.
  - apply lookup_insert_eq.
  - intros k Hk. by rewrite lookup_insert_ne.
Qed.

Lemma hover_writes_only_label_fg_witness :
  exists t l,
    label_ref w_default 1%positive = Some t /\
    heap w_default !! t = Some (OText l) /\
    heap (snd (handle 1%positive (Enter []) w_default))
      = <[t := OText (ot_setitem "fg" (hover_colour (Enter [])) l)]> (heap w_default) /\
    (forall r', r' ≠ t ->
       heap (snd (handle 1%positive (Enter []) w_default)) !! r' = heap w_default !! r').
Proof.
  destruct (hover_writes_only_label_fg tk_any BLC.defaults w_empty 1%positive
              w_default (Enter []) (Ok PyNone)
              (snd (handle 1%positive (Enter []) w_default)))
    as (t & l & H1 & H2 & H3 & H4 & _).
  - apply reach_new. vm_compute. reflexivity.
  - vm_compute. reflexivity.
  - exists t, l. auto.
Defined.



(** When [x] and [y] are numbers, the checkbox primitive accepts and
    [text_size] is not a number, line 29 raises [TypeError] from [//]:
    the checkbox exists by then, the label primitive is never called. *)
Lemma dyn_new_bad_text_size tk raw a w vx vy :
  as_int (Dyn.x a) = Some vx ->
  as_int (Dyn.y a) = Some vy ->
  as_int (Dyn.text_size a) = None ->
  (forall wp ca, checkbox_rejects tk wp ca = None) ->
  exists self c w',
    Dyn.new tk raw a w = (Raise (TypeError "//"), w') /\
    c ≠ self /\
    heap w' !! self = Some (OLabeled {| _checkbox := Some c; _text := None |}) /\
    (exists b, heap w' !! c = Some (OCheckbox b) /\ bindings (chk_node b) = []) /\
    forall r, r ≠ self -> r ≠ c -> heap w' !! r = heap w !! r.
Proof.
  intros Hx Hy Hs Hc.
  pose (s := fresh (dom (heap w))).
  pose (w1 := set_heap w (<[s := OLabeled {| _checkbox := None; _text := None |}]> (heap w))).
  pose (c := fresh (dom (heap w1))).
  assert (Hcs : c ≠ s).
  { apply fresh_ne. subst w1; simpl. rewrite lookup_insert_eq. eauto. }
  exists s, c. eexists.
  split.
  { unfold Dyn.new, Dyn.__init__, Dyn.checkbox_call, py_add, py_floordiv,
      DebugObject_init, BetterCheckbox.
    rewrite Hx, Hy, Hs.
    rewrite (bind_ok _ _ _ _ _ (alloc_ok _ w s eq_refl)). fold w1.
    unfold bind at 1. unfold bind at 1. unfold ret at 1.
    unfold bind at 1. rewrite Hc.
    rewrite (alloc_ok _ w1 c eq_refl).
    erewrite bind_ok;
      [|apply setattr_checkbox_ok; simpl; rewrite lookup_insert_ne by done;
        apply lookup_insert_eq].
    reflexivity. }
  split; [done|]. simpl.
  split; [apply lookup_insert_eq|].
  split.
  { eexists. rewrite lookup_insert_ne, lookup_insert_eq by done. done. }
  intros r Hrs Hrc. by rewrite !lookup_insert_ne.
Qed.




(** C10: each hover handler ignores its argument list, and after any
    sequence of hover notifications the label's foreground colour
    depends only on the last one: (0.5, 0.5, 0.5, 1.0) after an enter,
    (0.4, 0.4, 0.4, 1.0) after a leave.  Repeating the last notification,
    with any arguments, leaves the heap unchanged. *)
Theorem hover_last_wins tk a w0 self w evs ev :
  Reachable tk a w0 self w ->
  (forall args args',
     BLC._on_node_enter self args = BLC._on_node_enter self args' /\
     BLC._on_node_leave self args = BLC._on_node_leave self args') /\
  exists w1,
    handle_all self (evs ++ [ev]) w = (Ok tt, w1) /\
    label_fg w1 self =
      Some (match ev with
            | Enter _ => Tuple4 (1#2) (1#2) (1#2) 1
            | Leave _ => Tuple4 (2#5) (2#5) (2#5) 1
            end) /\
    forall ev', same_handler ev ev' = true ->
      exists w2, handle self ev' w1 = (Ok PyNone, w2) /\ heap w2 = heap w1.
Proof.
  intros R. split; [intros; split; reflexivity|].
  destruct (reachable_built _ _ _ _ _ R) as (wn & c & t & _ & _ & L).
  destruct (handle_all_live a self c t evs w L) as (wa & Ea & La).
  destruct (handle self ev wa) as [r w1] eqn:H.
  destruct (handle_live _ _ _ _ _ _ _ _ La H) as (-> & L1 & l & Hl & Hh & _).
  exists w1. split.
  { rewrite (handle_all_app _ _ _ _ _ Ea). simpl.
    by rewrite (bind_ok _ _ _ _ _ H). }
  split. { apply (handle_fg _ _ _ _ _ _ _ _ La H). }
  intros ev' Hsame.
  assert (Hcol : hover_colour ev' = hover_colour ev)
    by (destruct ev, ev'; simpl in *; done).
  pose proof (live_self _ _ _ _ _ L1) as Hs1.
  assert (Ht1 : heap w1 !! t = Some (OText (ot_setitem "fg" (hover_colour ev) l)))
    by (rewrite Hh; apply lookup_insert_eq).
  eexists. split; [apply (handle_eq self ev' w1 _ _ _ Hs1 Ht1)|].
  simpl. rewrite Hcol, ot_setitem_twice. by apply insert_id.
Qed.

Lemma hover_last_wins_witness :
  exists w1,
    handle_all 1%positive ([Enter []; Leave [PyInt 1]] ++ [Enter [PyNone]]) w_default
      = (Ok tt, w1) /\
    label_fg w1 1%positive = Some (Tuple4 (1#2) (1#2) (1#2) 1) /\
    forall ev', same_handler (Enter [PyNone]) ev' = true ->
      exists w2, handle 1%positive ev' w1 = (Ok PyNone, w2) /\ heap w2 = heap w1.
Proof.
  apply (proj2 (hover_last_wins tk_any BLC.defaults w_empty 1%positive w_default
                  [Enter []; Leave [PyInt 1]] (Enter [PyNone])
                  (reach_new tk_any BLC.defaults w_empty 1%positive w_default eq_refl))).
Defined.

(** ** Further properties of the class *)

Lemma live_frame a self c t w w' :
  Live a self c t w ->
  heap w' !! self = heap w !! self ->
  heap w' !! c = heap w !! c ->
  heap w' !! t = heap w !! t ->
  Live a self c t w'.
Proof.
  intros [Hs Hc [fg Ht] Hcs Hts Htc] Es Ec Et.
  split; try done; try congruence.
  exists fg. congruence.
Qed.

(** The checkbox is created at [(x, y)] under the given parent, with the
    callback, argument list (empty when none was given), checked state,
    radio flag and expand width handed over unchanged; the label gets
    the same parent. *)
Theorem checkbox_created_as_given tk a w self w' :
  BLC.new tk a w = (Ok self, w') ->
  exists b l,
    the_checkbox w' self = Some b /\ the_label w' self = Some l /\
    cb_parent (chk_conf b) = BLC.parent a /\
    ot_parent l = BLC.parent a /\
    cb_x (chk_conf b) = BLC.x a /\
    cb_y (chk_conf b) = BLC.y a /\
    cb_callback (chk_conf b) = BLC.chb_callback a /\
    (forall l0, BLC.chb_args a = Some l0 -> cb_extra_args (chk_conf b) = l0) /\
    (BLC.chb_args a = None -> cb_extra_args (chk_conf b) = []) /\
    cb_checked (chk_conf b) = BLC.chb_checked a /\
    cb_radio (chk_conf b) = BLC.radio a /\
    cb_expand_width (chk_conf b) = BLC.expand_width a.
Proof.
  intros H.
  destruct (new_built _ _ _ _ _ H) as (c & t & B).
  destruct (live_refs _ _ _ _ _ (built_live _ _ _ _ _ _ B)) as (_ & Hl & Hb).
  exists {| chk_conf := BLC.checkbox_call a;
            chk_node := {| bindings := hover_bindings self |} |},
         (text_of_args (BLC.text_call a)).
  split; [exact Hb|]. split.
  { unfold the_label. by rewrite Hl, (built_t _ _ _ _ _ _ B). }
  simpl. unfold BLC.chb_args_or_empty.
  repeat split; try done.
  - by intros l0 ->.
  - by intros ->.
Qed.

Lemma checkbox_created_as_given_witness :
  exists b l,
    the_checkbox w_default 1%positive = Some b /\
    the_label w_default 1%positive = Some l /\
    cb_parent (chk_conf b) = PyNone /\
    ot_parent l = PyNone /\
    cb_x (chk_conf b) = 0 /\
    cb_y (chk_conf b) = 0 /\
    cb_callback (chk_conf b) = PyNone /\
    (forall l0, None = Some l0 -> cb_extra_args (chk_conf b) = l0) /\
    (@None (list pyval) = None -> cb_extra_args (chk_conf b) = []) /\
    cb_checked (chk_conf b) = true /\
    cb_radio (chk_conf b) = false /\
    cb_expand_width (chk_conf b) = 100.
Proof.
  apply (checkbox_created_as_given tk_any BLC.defaults w_empty 1%positive w_default).
  vm_compute. reflexivity.
Defined.

(** After construction, and after any hover callbacks, the node of the
    checkbox carries exactly the two bindings made by [__init__]: the
    pointer entering the node runs this instance's [_on_node_enter], the
    pointer leaving it runs its [_on_node_leave], and the label turns
    (0.5, 0.5, 0.5, 1.0) and (0.4, 0.4, 0.4, 1.0) accordingly. *)
Theorem pointer_events_reach_handlers tk a w0 self w args :
  Reachable tk a w0 self w ->
  exists c b,
    checkbox_ref w self = Some c /\
    heap w !! c = Some (OCheckbox b) /\
    bindings (chk_node b) = hover_bindings self /\
    dispatch c WITHIN args w = BLC._on_node_enter self args w /\
    dispatch c WITHOUT args w = BLC._on_node_leave self args w /\
    (exists w', dispatch c WITHIN args w = (Ok PyNone, w') /\
                label_fg w' self = Some (Tuple4 (1#2) (1#2) (1#2) 1)) /\
    (exists w', dispatch c WITHOUT args w = (Ok PyNone, w') /\
                label_fg w' self = Some (Tuple4 (2#5) (2#5) (2#5) 1)).
Proof.
  intros R.
  destruct (reachable_built _ _ _ _ _ R) as (w1 & c & t & _ & _ & L).
  destruct (live_refs _ _ _ _ _ L) as (Hc & _ & _).
  destruct (dispatch_bound _ _ _ _ _ args L) as (Din & Dout).
  exists c. eexists.
  split; [exact Hc|]. split; [apply (live_c _ _ _ _ _ L)|]. split; [reflexivity|].
  split; [exact Din|]. split; [exact Dout|]. split.
  - rewrite Din.
    destruct (BLC._on_node_enter self args w) as [r w'] eqn:H.
    change (handle self (Enter args) w = (r, w')) in H.
    destruct (handle_live _ _ _ _ _ _ _ _ L H) as (-> & _).
    exists w'. split; [done|]. apply (handle_fg _ _ _ _ _ _ _ _ L H).
  - rewrite Dout.
    destruct (BLC._on_node_leave self args w) as [r w'] eqn:H.
    change (handle self (Leave args) w = (r, w')) in H.
    destruct (handle_live _ _ _ _ _ _ _ _ L H) as (-> & _).
    exists w'. split; [done|]. apply (handle_fg _ _ _ _ _ _ _ _ L H).
Qed.

Lemma pointer_events_reach_handlers_witness :
  exists c b,
    checkbox_ref w_default 1%positive = Some c /\
    heap w_default !! c = Some (OCheckbox b) /\
    bindings (chk_node b) = hover_bindings 1%positive /\
    dispatch c WITHIN [PyNone] w_default
      = BLC._on_node_enter 1%positive [PyNone] w_default.
Proof.
  destruct (pointer_events_reach_handlers tk_any BLC.defaults w_empty 1%positive
              w_default [PyNone])
    as (c & b & H1 & H2 & H3 & H4 & _).
  - apply reach_new. vm_compute. reflexivity.
  - exists c, b. auto.
Defined.

(** When the checkbox primitive refuses its call, the constructor raises
    that exception at once: the label primitive has no say, and the heap
    holds nothing new but the instance, left without attributes. *)
Theorem checkbox_failure_comes_first tk a w e :
  checkbox_rejects tk
    (set_heap w (<[fresh (dom (heap w)) :=
                     OLabeled {| _checkbox := None; _text := None |}]> (heap w)))
    (BLC.checkbox_call a) = Some e ->
  exists self w',
    BLC.new tk a w = (Raise e, w') /\
    heap w !! self = None /\
    heap w' = <[self := OLabeled {| _checkbox := None; _text := None |}]> (heap w) /\
    stdout w' = stdout w /\
    BLC.get_checkbox self w' = (Raise (AttributeError "_checkbox"), w') /\
    BLC.get_label self w' = (Raise (AttributeError "_text"), w').
Proof.
  intros Hr.
  eexists (fresh (dom (heap w))), _.
  split.
  { rewrite (new_unfold tk a w _ _ _ _ _ _ eq_refl eq_refl eq_refl eq_refl eq_refl eq_refl).
    rewrite Hr. reflexivity. }
  split; [apply fresh_lookup|]. split; [reflexivity|]. split; [reflexivity|].
  split.
  - unfold BLC.get_checkbox, getattr_checkbox. simpl. by rewrite lookup_insert_eq.
  - unfold BLC.get_label, getattr_text. simpl. by rewrite lookup_insert_eq.
Qed.

Lemma checkbox_failure_comes_first_witness :
  exists self w',
    BLC.new tk_strict (BLC.with_parent (PyStr "root") BLC.defaults) w_empty
      = (Raise (ToolkitError "invalid parent"), w') /\
    heap w_empty !! self = None /\
    heap w' = <[self := OLabeled {| _checkbox := None; _text := None |}]> (heap w_empty) /\
    stdout w' = stdout w_empty /\
    BLC.get_checkbox self w' = (Raise (AttributeError "_checkbox"), w') /\
    BLC.get_label self w' = (Raise (AttributeError "_text"), w').
Proof.
  apply (checkbox_failure_comes_first tk_strict
           (BLC.with_parent (PyStr "root") BLC.defaults) w_empty).
  reflexivity.
Defined.

(** When the checkbox primitive accepts its call and the label primitive
    refuses, the constructor raises the label's exception and leaves a
    half-built instance behind: the checkbox exists and is reachable
    through [get_checkbox], but its node has no hover binding, there is
    no label, [get_label] raises [AttributeError], and a hover callback
    called on the instance prints its line and then raises. *)
Theorem label_failure_leaves_bare_checkbox tk a w e :
  (forall wp, checkbox_rejects tk wp (BLC.checkbox_call a) = None) ->
  (forall wp, text_rejects tk wp (BLC.text_call a) = Some e) ->
  exists self c w',
    BLC.new tk a w = (Raise e, w') /\
    heap w !! self = None /\ heap w !! c = None /\ c ≠ self /\
    heap w' !! self = Some (OLabeled {| _checkbox := Some c; _text := None |}) /\
    heap w' !! c = Some (cb_built a []) /\
    (forall r, r ≠ self -> r ≠ c -> heap w' !! r = heap w !! r) /\
    BLC.get_checkbox self w' = (Ok c, w') /\
    BLC.get_label self w' = (Raise (AttributeError "_text"), w') /\
    (forall ev args, dispatch c ev args w' = (Ok PyNone, w')) /\
    (forall ev, handle self ev w'
       = (Raise (AttributeError "_text"),
          {| heap := heap w'; stdout := (stdout w' ++ [hover_trace ev])%list |})).
Proof.
  intros Hc Ht.
  pose (s := fresh (dom (heap w))).
  pose (w1 := set_heap w (<[s := OLabeled {| _checkbox := None; _text := None |}]> (heap w))).
  pose (c := fresh (dom (heap w1))).
  pose (w2 := set_heap w (<[s := OLabeled {| _checkbox := Some c; _text := None |}]>
                            (<[c := cb_built a [] ]> (heap w1)))).
  assert (Hs : heap w !! s = None) by apply fresh_lookup.
  assert (Hc1 : heap w1 !! c = None) by apply fresh_lookup.
  assert (Hcs : c ≠ s).
  { apply fresh_ne. subst w1; simpl. rewrite lookup_insert_eq. eauto. }
  assert (Hcw : heap w !! c = None).
  { subst w1; simpl in Hc1. by rewrite lookup_insert_ne in Hc1. }
  assert (H2s : heap w2 !! s = Some (OLabeled {| _checkbox := Some c; _text := None |}))
    by apply lookup_insert_eq.
  assert (H2c : heap w2 !! c = Some (cb_built a [])).
  { subst w2; simpl. rewrite lookup_insert_ne, lookup_insert_eq by done. done. }
  assert (Hfr : forall r, r ≠ s -> r ≠ c -> heap w2 !! r = heap w !! r).
  { intros r Hrs Hrc. subst w2 w1; simpl. by rewrite !lookup_insert_ne. }
  assert (Hnew : BLC.new tk a w = (Raise e, w2)).
  { rewrite (new_unfold tk a w s w1 c w2 _ _ eq_refl eq_refl eq_refl eq_refl eq_refl eq_refl).
    by rewrite Hc, Ht. }
  clearbody w2.
  exists s, c, w2.
  repeat split; try done.
  - unfold BLC.get_checkbox. eapply getattr_checkbox_ok. exact H2s.
  - unfold BLC.get_label, getattr_text. by rewrite H2s.
  - intros ev args. unfold dispatch. rewrite H2c. by destruct ev.
  - intros ev. destruct ev as [args|args]; simpl;
      unfold BLC._on_node_enter, BLC._on_node_leave;
      (erewrite bind_ok; [|reflexivity]);
      (erewrite bind_raise; [reflexivity|]);
      unfold getattr_text; simpl; by rewrite H2s.
Qed.

Lemma label_failure_leaves_bare_checkbox_witness :
  exists self c w',
    BLC.new tk_strict
      {| BLC.parent := PyNone; BLC.x := 5; BLC.y := 7; BLC.chb_callback := PyNone;
         BLC.chb_args := None; BLC.chb_checked := false; BLC.text := "fog";
         BLC.text_size := 0; BLC.radio := false; BLC.text_color := None;
         BLC.expand_width := 100 |} w_empty
      = (Raise (ToolkitError "invalid font size"), w') /\
    BLC.get_checkbox self w' = (Ok c, w') /\
    BLC.get_label self w' = (Raise (AttributeError "_text"), w').
Proof.
  destruct (label_failure_leaves_bare_checkbox tk_strict
              {| BLC.parent := PyNone; BLC.x := 5; BLC.y := 7; BLC.chb_callback := PyNone;
                 BLC.chb_args := None; BLC.chb_checked := false; BLC.text := "fog";
                 BLC.text_size := 0; BLC.radio := false; BLC.text_color := None;
                 BLC.expand_width := 100 |} w_empty
              (ToolkitError "invalid font size"))
    as (self & c & w' & H1 & _ & _ & _ & _ & _ & _ & H2 & H3 & _).
  - intros wp. reflexivity.
  - intros wp. reflexivity.
  - exists self, c, w'. auto.
Defined.

(** Every hover notification handled by a constructed instance succeeds
    and prints one line, ["node enter"] or ["node leave"]: after a
    sequence of notifications the console holds what it held before,
    followed by their lines in order. *)
Theorem hover_console_trace tk a w0 self w evs :
  Reachable tk a w0 self w ->
  exists w',
    handle_all self evs w = (Ok tt, w') /\
    Reachable tk a w0 self w' /\
    stdout w' = (stdout w ++ map hover_trace evs)%list /\
    length (stdout w') = (length (stdout w) + length evs)%nat.
Proof.
  intros R. revert w R.
  induction evs as [|ev evs IH]; intros w R; simpl.
  - exists w. rewrite app_nil_r. repeat split; try done; lia.
  - destruct (reachable_built _ _ _ _ _ R) as (w1 & c & t & _ & _ & L).
    destruct (handle self ev w) as [r wm] eqn:H.
    destruct (handle_live _ _ _ _ _ _ _ _ L H) as (-> & _ & _ & _ & _ & Ho).
    destruct (IH wm (reach_hover _ _ _ _ _ _ _ _ R H)) as (w' & E & R' & Ho' & Hl).
    exists w'. split; [by rewrite (bind_ok _ _ _ _ _ H)|]. split; [done|].
    split.
    + rewrite Ho', Ho. by rewrite <- app_assoc.
    + rewrite Hl, Ho, length_app. simpl. lia.
Qed.

Lemma hover_console_trace_witness :
  exists w',
    handle_all 1%positive [Enter []; Leave []; Leave [PyInt 2]] w_default = (Ok tt, w') /\
    stdout w' = ["node enter"; "node leave"; "node leave"].
Proof.
  destruct (hover_console_trace tk_any BLC.defaults w_empty 1%positive w_default
              [Enter []; Leave []; Leave [PyInt 2]])
    as (w' & H1 & _ & H2 & _).
  - apply reach_new. vm_compute. reflexivity.
  - exists w'. split; [exact H1|]. rewrite H2. reflexivity.
Defined.

(** A construction leaves every instance built earlier as it was. *)
Lemma new_keeps_live tk a1 self1 c1 t1 a2 w self2 w' c2 t2 :
  Live a1 self1 c1 t1 w ->
  BLC.new tk a2 w = (Ok self2, w') -> Built a2 w self2 w' c2 t2 ->
  Live a1 self1 c1 t1 w' /\ self1 ≠ self2 /\ c1 ≠ c2 /\ t1 ≠ t2 /\ t1 ≠ self2 /\
  t1 ≠ c2 /\ t2 ≠ self1 /\ t2 ≠ c1.
Proof.
  intros L _ B.
  pose proof L as [Hs Hc [fg Ht] _ _ _].
  pose proof (built_self_new _ _ _ _ _ _ B) as Ns.
  pose proof (built_c_new _ _ _ _ _ _ B) as Nc.
  pose proof (built_t_new _ _ _ _ _ _ B) as Nt.
  assert (D : forall r o, heap w !! r = Some o -> r ≠ self2 /\ r ≠ c2 /\ r ≠ t2).
  { intros r o Hr. repeat split; intros ->; congruence. }
  destruct (D _ _ Hs) as (? & ? & ?).
  destruct (D _ _ Hc) as (? & ? & ?).
  destruct (D _ _ Ht) as (? & ? & ?).
  split; [|repeat split; congruence].
  apply (live_frame _ _ _ _ w); [done|..];
    by apply (built_frame _ _ _ _ _ _ B).
Qed.

(** Two labeled checkboxes are independent: a hover notification handled
    by one recolours its own label and leaves the other instance, its
    checkbox and its label, colour included, untouched. *)
Theorem instances_are_independent tk a1 a2 w0 self1 w1 self2 w2 :
  BLC.new tk a1 w0 = (Ok self1, w1) ->
  BLC.new tk a2 w1 = (Ok self2, w2) ->
  self1 ≠ self2 /\
  (forall ev r w3,
     handle self1 ev w2 = (r, w3) ->
     r = Ok PyNone /\
     label_fg w3 self1 = Some (hover_colour ev) /\
     the_label w3 self2 = the_label w2 self2 /\
     the_checkbox w3 self2 = the_checkbox w2 self2 /\
     label_fg w3 self2 = Some (BLC.text_color_or_white a2)) /\
  (forall ev r w3,
     handle self2 ev w2 = (r, w3) ->
     r = Ok PyNone /\
     label_fg w3 self2 = Some (hover_colour ev) /\
     the_label w3 self1 = the_label w2 self1 /\
     the_checkbox w3 self1 = the_checkbox w2 self1 /\
     label_fg w3 self1 = Some (BLC.text_color_or_white a1)).
Proof.
  intros H1 H2.
  destruct (new_built _ _ _ _ _ H1) as (c1 & t1 & B1).
  destruct (new_built _ _ _ _ _ H2) as (c2 & t2 & B2).
  pose proof (built_live _ _ _ _ _ _ B1) as L1.
  pose proof (built_live _ _ _ _ _ _ B2) as L2.
  destruct (new_keeps_live _ _ _ _ _ _ _ _ _ _ _ L1 H2 B2)
    as (L1' & Ns & Nc & Nt & Nts & Ntc & Nts' & Ntc').
  assert (F1 : heap w2 !! t1 = Some (OText (text_of_args (BLC.text_call a1)))).
  { rewrite (built_frame _ _ _ _ _ _ B2) by done. apply (built_t _ _ _ _ _ _ B1). }
  assert (G : forall a self c t w (L : Live a self c t w) lab,
             heap w !! t = Some (OText lab) ->
             the_label w self = Some lab /\ label_fg w self = ot_node lab !! "fg").
  { intros a self c t w L lab Hl.
    destruct (live_refs _ _ _ _ _ L) as (_ & Hr & _).
    unfold label_fg, the_label. by rewrite Hr, Hl. }
  split; [exact Ns|]. split.
  - intros ev r w3 H.
    destruct (handle_live _ _ _ _ _ _ _ _ L1' H) as (-> & L13 & lab & Hl & Hh & _).
    assert (L23 : Live a2 self2 c2 t2 w3).
    { apply (live_frame _ _ _ _ w2); [done|..]; rewrite Hh;
        apply lookup_insert_ne; congruence. }
    assert (E2 : heap w3 !! t2 = heap w2 !! t2)
      by (rewrite Hh; apply lookup_insert_ne; congruence).
    pose proof (built_t _ _ _ _ _ _ B2) as T2.
    destruct (G _ _ _ _ _ L2 _ T2) as (Gl & Gf).
    rewrite <- E2 in T2. destruct (G _ _ _ _ _ L23 _ T2) as (Gl' & Gf').
    destruct (live_refs _ _ _ _ _ L2) as (_ & _ & Hb).
    destruct (live_refs _ _ _ _ _ L23) as (_ & _ & Hb').
    split; [done|]. split; [apply (handle_fg _ _ _ _ _ _ _ _ L1' H)|].
    split; [congruence|]. split; [congruence|].
    rewrite Gf'. simpl. apply lookup_singleton_eq.
  - intros ev r w3 H.
    destruct (handle_live _ _ _ _ _ _ _ _ L2 H) as (-> & L23 & lab & Hl & Hh & _).
    assert (L13 : Live a1 self1 c1 t1 w3).
    { apply (live_frame _ _ _ _ w2); [done|..]; rewrite Hh;
        apply lookup_insert_ne; congruence. }
    assert (E1 : heap w3 !! t1 = heap w2 !! t1)
      by (rewrite Hh; apply lookup_insert_ne; congruence).
    destruct (G _ _ _ _ _ L1' _ F1) as (Gl & Gf).
    rewrite <- E1 in F1. destruct (G _ _ _ _ _ L13 _ F1) as (Gl' & Gf').
    destruct (live_refs _ _ _ _ _ L1') as (_ & _ & Hb).
    destruct (live_refs _ _ _ _ _ L13) as (_ & _ & Hb').
    split; [done|]. split; [apply (handle_fg _ _ _ _ _ _ _ _ L2 H)|].
    split; [congruence|]. split; [congruence|].
    rewrite Gf'. simpl. apply lookup_singleton_eq.
Qed.

Lemma instances_are_independent_witness :
  label_fg (snd (handle 1%positive (Enter [])
                   (snd (BLC.new tk_any (BLC.with_text_color (Some (Vec3 1 0 0))
                                           BLC.defaults) w_default)))) 1%positive
    = Some (Tuple4 (1#2) (1#2) (1#2) 1) /\
  label_fg (snd (handle 1%positive (Enter [])
                   (snd (BLC.new tk_any (BLC.with_text_color (Some (Vec3 1 0 0))
                                           BLC.defaults) w_default)))) 4%positive
    = Some (Vec3 1 0 0).
Proof.
  destruct (instances_are_independent tk_any BLC.defaults
              (BLC.with_text_color (Some (Vec3 1 0 0)) BLC.defaults)
              w_empty 1%positive w_default 4%positive
              (snd (BLC.new tk_any (BLC.with_text_color
                                      (Some (Vec3 1 0 0)) BLC.defaults) w_default)))
    as (_ & F & _).
  - vm_compute. reflexivity.
  - vm_compute. reflexivity.
  - destruct (F (Enter []) (Ok PyNone) _ eq_refl) as (_ & Hf & _ & _ & Hg).
    split; [exact Hf|exact Hg].
Defined.

(** The handle returned by [get_label] is the label itself, not a copy:
    a colour written through it is the colour the instance shows, until
    the next hover notification overwrites it. *)
Theorem get_label_exposes_the_label tk a w0 self w v :
  Reachable tk a w0 self w ->
  exists t w',
    BLC.get_label self w = (Ok t, w) /\
    node_setitem t "fg" v w = (Ok tt, w') /\
    label_fg w' self = Some v /\
    the_checkbox w' self = the_checkbox w self /\
    forall ev r w'',
      handle self ev w' = (r, w'') ->
      r = Ok PyNone /\ label_fg w'' self = Some (hover_colour ev).
Proof.
  intros R.
  destruct (reachable_built _ _ _ _ _ R) as (w1 & c & t & _ & _ & L).
  pose proof L as [Hs Hc [fg Ht] Hcs Hts Htc].
  exists t. eexists.
  split; [eapply getattr_text_ok; exact Hs|].
  split; [apply (node_setitem_ok _ _ _ _ _ Ht)|].
  assert (L' : Live a self c t
                 (set_heap w (<[t := OText (ot_setitem "fg" v
                    (ot_setitem "fg" fg (text_of_args (BLC.text_call a))))]> (heap w)))).
  { split; simpl; try done.
    - by rewrite lookup_insert_ne.
    - by rewrite lookup_insert_ne.
    - exists v. by rewrite lookup_insert_eq, ot_setitem_twice. }
  destruct (live_refs _ _ _ _ _ L) as (_ & _ & Hb).
  destruct (live_refs _ _ _ _ _ L') as (_ & Hl' & Hb').
  split.
  { unfold label_fg, the_label. rewrite Hl'. simpl. rewrite lookup_insert_eq.
    simpl. apply lookup_insert_eq. }
  split; [congruence|].
  intros ev r w'' H.
  destruct (handle_live _ _ _ _ _ _ _ _ L' H) as (-> & _).
  split; [done|]. apply (handle_fg _ _ _ _ _ _ _ _ L' H).
Qed.

Lemma get_label_exposes_the_label_witness :
  exists t w',
    BLC.get_label 1%positive w_default = (Ok t, w_default) /\
    node_setitem t "fg" (Vec3 0 1 0) w_default = (Ok tt, w') /\
    label_fg w' 1%positive = Some (Vec3 0 1 0).
Proof.
  destruct (get_label_exposes_the_label tk_any BLC.defaults w_empty 1%positive
              w_default (Vec3 0 1 0))
    as (t & w' & H1 & H2 & H3 & _).
  - apply reach_new. vm_compute. reflexivity.
  - exists t, w'. auto.
Defined.

(** Whatever hover notifications a constructed instance has handled, it
    still owns the checkbox and the label it was built with, the checkbox
    is unchanged, the label differs from the one built at most in its
    foreground colour, and that colour is the construction-time colour
    or one of the two hover greys. *)
Theorem hover_history_invariant tk a w0 self w1 w :
  BLC.new tk a w0 = (Ok self, w1) ->
  Reachable tk a w0 self w ->
  checkbox_ref w self = checkbox_ref w1 self /\
  label_ref w self = label_ref w1 self /\
  the_checkbox w self = the_checkbox w1 self /\
  (exists l1 fg,
     the_label w1 self = Some l1 /\
     the_label w self = Some (ot_setitem "fg" fg l1)) /\
  (label_fg w self = Some (BLC.text_color_or_white a) \/
   label_fg w self = Some (Tuple4 (1#2) (1#2) (1#2) 1) \/
   label_fg w self = Some (Tuple4 (2#5) (2#5) (2#5) 1)).
Proof.
  intros Hn R.
  destruct (new_built _ _ _ _ _ Hn) as (c & t & B).
  pose proof (built_live _ _ _ _ _ _ B) as L1.
  pose proof (reachable_live _ _ _ _ _ _ _ _ Hn B R) as L.
  destruct (live_refs _ _ _ _ _ L1) as (Hc1 & Hl1 & Hb1).
  destruct (live_refs _ _ _ _ _ L) as (Hc & Hl & Hb).
  split; [congruence|]. split; [congruence|]. split; [congruence|].
  split.
  - destruct (live_t _ _ _ _ _ L) as [fg Ht].
    exists (text_of_args (BLC.text_call a)), fg. split.
    + unfold the_label. by rewrite Hl1, (built_t _ _ _ _ _ _ B).
    + unfold the_label. by rewrite Hl, Ht.
  - clear L Hc Hl Hb. induction R as [w E|w ev r w' R IH H].
    + left. rewrite Hn in E. injection E as <-.
      unfold label_fg, the_label. rewrite Hl1, (built_t _ _ _ _ _ _ B). simpl.
      apply lookup_singleton_eq.
    + right.
      pose proof (reachable_live _ _ _ _ _ _ _ _ Hn B R) as L.
      rewrite (handle_fg _ _ _ _ _ _ _ _ L H). destruct ev; auto.
Qed.

Lemma hover_history_invariant_witness :
  label_fg (snd (handle 1%positive (Leave []) w_default)) 1%positive
    = Some (Vec3 1 1 1) \/
  label_fg (snd (handle 1%positive (Leave []) w_default)) 1%positive
    = Some (Tuple4 (1#2) (1#2) (1#2) 1) \/
  label_fg (snd (handle 1%positive (Leave []) w_default)) 1%positive
    = Some (Tuple4 (2#5) (2#5) (2#5) 1).
Proof.
  refine (proj2 (proj2 (proj2 (proj2
    (hover_history_invariant tk_any BLC.defaults w_empty 1%positive w_default
       (snd (handle 1%positive (Leave []) w_default)) _ _))))).
  - vm_compute. reflexivity.
  - apply (reach_hover _ _ _ _ w_default (Leave []) (Ok PyNone)).
    + apply reach_new. vm_compute. reflexivity.
    + vm_compute. reflexivity.
Defined.
